(** * A shallow embedding of [dotbot/sailbot_simulator.py]

    The simulated SailBot ([SailBotSim]) and its fake serial interface
    ([SailBotSimSerialInterface]).  Python floats are read as exact
    rationals ([Q]); Python ints as [Z]; an exception raised by a call is an
    explicit [Raised] outcome.  The HDLC framing and the protocol payload
    (de)serialisation live in other modules of the package
    ([dotbot.hdlc], [dotbot.protocol]); the code here only calls them, so
    they are parameters of the development. *)

From Stdlib Require Import ZArith QArith String Ascii List Bool Lia.
From Stdlib Require Import Init.Byte Qfield.
Import ListNotations.

Open Scope Z_scope.

(** ** Python helpers *)

(** [math.pi]: the double closest to pi, an exact rational. *)
Definition math_pi : Q := 884279719003555 # 281474976710656.

(** [int(q)] on a float: truncation toward zero. *)
Definition py_int (q : Q) : Z := Z.quot (Qnum q) (Zpos (Qden q)).

(** One lowercase hexadecimal digit, as [hex] prints it. *)
Definition hex_char (d : Z) : ascii :=
  ascii_of_nat (Z.to_nat (if d <? 10 then 48 + d else 87 + d)).

(** The digits of a non-negative [n], most significant first, prepended to
    [acc]; [fuel] bounds the number of digits. *)
Fixpoint hex_digits_aux (fuel : nat) (n : Z) (acc : string) : string :=
  match fuel with
  | O => acc
  | S f =>
      let acc' := String (hex_char (n mod 16)) acc in
      if n <? 16 then acc' else hex_digits_aux f (n / 16) acc'
  end.

Definition hex_digits (n : Z) : string :=
  hex_digits_aux (S (Z.to_nat (Z.log2 n))) n EmptyString.

(** Python's [hex(n)]: ["0x..."], or ["-0x..."] for a negative [n]. *)
Definition py_hex (n : Z) : string :=
  if n <? 0 then String "-" (String "0" (String "x" (hex_digits (- n))))
  else String "0" (String "x" (hex_digits n)).

(** [s[2:]] *)
Definition drop2 (s : string) : string := substring 2 (String.length s - 2) s.

(** The value of one hexadecimal digit, either case. *)
Definition hex_val (c : ascii) : option Z :=
  let n := Z.of_nat (nat_of_ascii c) in
  if (48 <=? n) && (n <=? 57) then Some (n - 48)
  else if (97 <=? n) && (n <=? 102) then Some (n - 87)
  else if (65 <=? n) && (n <=? 70) then Some (n - 55)
  else None.

Fixpoint parse_hex_aux (s : string) (acc : Z) : option Z :=
  match s with
  | EmptyString => Some acc
  | String c r =>
      match hex_val c with
      | Some d => parse_hex_aux r (acc * 16 + d)
      | None => None
      end
  end.

(** [int(s, 16)] on a string of hexadecimal digits; [None] is the
    [ValueError] it raises otherwise (prefixes, signs, underscores and
    surrounding blanks, which Python also accepts, are not used by the
    code and not modelled). *)
Definition py_int16 (s : string) : option Z :=
  match s with
  | EmptyString => None
  | _ => parse_hex_aux s 0
  end.

(** ** Protocol data (from [dotbot.protocol]) *)

Inductive ApplicationType := DotBot | SailBot | FreeBot | XGO | LH2_mini_mote.

Record ProtocolHeader := {
  destination : Z;
  source : Z;
  swarm_id : Z;
  application : ApplicationType;
  version : Z;
}.

(** The payloads the simulator builds or inspects; every other payload
    type is [OtherPayload]. *)
Inductive PayloadValues :=
  | Advertisement
  | SailBotData (direction latitude longitude wind_angle : Z)
  | CommandMoveRaw (left_x right_y : Z)
  | OtherPayload (type_code : Z).

Inductive PayloadType := ADVERTISEMENT | SAILBOT_DATA | CMD_MOVE_RAW | OTHER_TYPE.

Definition payload_type_of (v : PayloadValues) : PayloadType :=
  match v with
  | Advertisement => ADVERTISEMENT
  | SailBotData _ _ _ _ => SAILBOT_DATA
  | CommandMoveRaw _ _ => CMD_MOVE_RAW
  | OtherPayload _ => OTHER_TYPE
  end.

Record ProtocolPayload := {
  header : ProtocolHeader;
  values : PayloadValues;
}.

Definition payload_type (p : ProtocolPayload) : PayloadType :=
  payload_type_of (values p).

(** Exceptions the code can raise. *)
Inductive PyExn :=
  | HDLCDecodeException
  | ProtocolPayloadParserException
  | ValueError.

(** A call's outcome: it returned, or raised after the mutations it made
    so far (carried along, since Python mutates objects in place). *)
Inductive outcome (A : Type) :=
  | Returned (a : A)
  | Raised (e : PyExn) (a : A).
Arguments Returned {A} a.
Arguments Raised {A} e a.

(** ** The simulated SailBot *)

Record SailBotSim := mkSailBotSim {
  address : string;
  earth_radius_km : Q;
  origin_coord_latitude : Q;
  origin_coord_longitude : Q;
  cos_phi_0 : Q;
  true_wind_angle : Z;
  latitude : Q;
  longitude : Q;
  wind_angle : Z;
  direction : Z;
  x : Q;
  y : Q;
  speed : Z;
  ang_speed : Z;
  rudder_slider : Z;
  sail_slider : Z;
  controller : string;
}.

Definition convert_cartesian_to_geographical (s : SailBotSim) (x y : Q) : Q * Q :=
  let latitude :=
    ((((y * 0.180) / math_pi) / earth_radius_km s) + origin_coord_latitude s)%Q in
  let longitude :=
    ((((x * 0.180) / math_pi / cos_phi_0 s) / earth_radius_km s)
     + origin_coord_longitude s)%Q in
  (latitude, longitude).

Definition convert_geographical_to_cartesian (s : SailBotSim) (latitude longitude : Q)
  : Q * Q :=
  let x := (((longitude - origin_coord_longitude s) * earth_radius_km s * cos_phi_0 s
             * math_pi) / 0.180)%Q in
  let y := (((latitude - origin_coord_latitude s) * earth_radius_km s * math_pi)
             / 0.180)%Q in
  (x, y).

(** [SailBotSim.__init__]: the fields before [self.x, self.y] are set ... *)
Definition sailbot_init_fields (addr : string) : SailBotSim := {|
  address := addr;
  earth_radius_km := 6371;
  origin_coord_latitude := 48.825908;
  origin_coord_longitude := 2.406433;
  cos_phi_0 := 0.658139837;
  true_wind_angle := 30;
  latitude := 48.832313;
  longitude := 2.412689;
  wind_angle := 0;
  direction := 0;
  x := 0; y := 0;
  speed := 0; ang_speed := 0;
  rudder_slider := 0; sail_slider := 0;
  controller := "MANUAL";
|}.

(** ... then [self.x, self.y] are derived from the initial position. *)
Definition new_SailBotSim (addr : string) : SailBotSim :=
  let s := sailbot_init_fields addr in
  let '(x0, y0) := convert_geographical_to_cartesian s (latitude s) (longitude s) in
  {| address := address s;
     earth_radius_km := earth_radius_km s;
     origin_coord_latitude := origin_coord_latitude s;
     origin_coord_longitude := origin_coord_longitude s;
     cos_phi_0 := cos_phi_0 s;
     true_wind_angle := true_wind_angle s;
     latitude := latitude s; longitude := longitude s;
     wind_angle := wind_angle s; direction := direction s;
     x := x0; y := y0;
     speed := speed s; ang_speed := ang_speed s;
     rudder_slider := rudder_slider s; sail_slider := sail_slider s;
     controller := controller s |}.

(** [SailBotSim.state_space_model] *)
Definition state_space_model (s : SailBotSim) : SailBotSim :=
  let x' := (x s + inject_Z (rudder_slider s))%Q in
  let y' := (y s + inject_Z (sail_slider s))%Q in
  let '(lat, lon) := convert_cartesian_to_geographical s x' y' in
  let direction' := (direction s + 10) mod 360 in
  let wind_angle' := (- direction' + true_wind_angle s) mod 360 in
  {| address := address s;
     earth_radius_km := earth_radius_km s;
     origin_coord_latitude := origin_coord_latitude s;
     origin_coord_longitude := origin_coord_longitude s;
     cos_phi_0 := cos_phi_0 s;
     true_wind_angle := true_wind_angle s;
     latitude := lat; longitude := lon;
     wind_angle := wind_angle'; direction := direction';
     x := x'; y := y';
     speed := speed s; ang_speed := ang_speed s;
     rudder_slider := rudder_slider s; sail_slider := sail_slider s;
     controller := controller s |}.

(** The store of [decode_serial_input] on a move command. *)
Definition set_command (s : SailBotSim) (ctrl : string) (rudder sail : Z) : SailBotSim :=
  {| address := address s;
     earth_radius_km := earth_radius_km s;
     origin_coord_latitude := origin_coord_latitude s;
     origin_coord_longitude := origin_coord_longitude s;
     cos_phi_0 := cos_phi_0 s;
     true_wind_angle := true_wind_angle s;
     latitude := latitude s; longitude := longitude s;
     wind_angle := wind_angle s; direction := direction s;
     x := x s; y := y s;
     speed := speed s; ang_speed := ang_speed s;
     rudder_slider := rudder; sail_slider := sail;
     controller := ctrl |}.

(** [v - 256 if v > 127 else v] *)
Definition signed_byte (v : Z) : Z := if v >? 127 then v - 256 else v.

Section Codec.

(** The framing and payload codec of [dotbot.hdlc] and [dotbot.protocol]:
    decoding returns [None] where it raises. *)
Variable hdlc_decode : list byte -> option (list byte).
Variable hdlc_encode : list byte -> list byte.
Variable payload_from_bytes : list byte -> option ProtocolPayload.
Variable payload_to_bytes : ProtocolPayload -> list byte.
(** [dotbot.GATEWAY_ADDRESS_DEFAULT], [dotbot.SWARM_ID_DEFAULT],
    [dotbot.protocol.PROTOCOL_VERSION] *)
Variable GATEWAY_ADDRESS_DEFAULT SWARM_ID_DEFAULT : string.
Variable PROTOCOL_VERSION : Z.

(** [ProtocolPayload.from_bytes(hdlc_decode(frame))] *)
Definition decode_frame (frame : list byte) : outcome (option ProtocolPayload) :=
  match hdlc_decode frame with
  | None => Raised HDLCDecodeException None
  | Some raw =>
      match payload_from_bytes raw with
      | None => Raised ProtocolPayloadParserException None
      | Some p => Returned (Some p)
      end
  end.

(** [SailBotSim.decode_serial_input] *)
Definition decode_serial_input (frame : list byte) (s : SailBotSim) : outcome SailBotSim :=
  match decode_frame frame with
  | Raised e _ => Raised e s
  | Returned None => Returned s
  | Returned (Some payload) =>
      if String.eqb (address s) (drop2 (py_hex (destination (header payload)))) then
        match values payload with
        | CommandMoveRaw left_x right_y =>
            Returned (set_command s "MANUAL" (signed_byte left_x) (signed_byte right_y))
        | _ => Returned s
        end
      else Returned s
  end.

(** The [header] property; [int(..., 16)] may raise. *)
Definition sim_header (s : SailBotSim) : option ProtocolHeader :=
  match py_int16 GATEWAY_ADDRESS_DEFAULT, py_int16 (address s), py_int16 SWARM_ID_DEFAULT with
  | Some dst, Some src, Some swarm =>
      Some {| destination := dst; source := src; swarm_id := swarm;
              application := SailBot; version := PROTOCOL_VERSION |}
  | _, _, _ => None
  end.

(** [SailBotSim.encode_serial_output] *)
Definition encode_serial_output (s : SailBotSim) : option (list byte) :=
  match sim_header s with
  | None => None
  | Some h =>
      Some (hdlc_encode (payload_to_bytes
        {| header := h;
           values := SailBotData (direction s)
                                 (py_int (latitude s * 1000000))
                                 (py_int (longitude s * 1000000))
                                 (wind_angle s) |}))
  end.

(** [SailBotSim.advertise] *)
Definition advertise (s : SailBotSim) : option (list byte) :=
  match sim_header s with
  | None => None
  | Some h => Some (hdlc_encode (payload_to_bytes {| header := h; values := Advertisement |}))
  end.

(** [SailBotSim.update]: the new state and the returned frame ([None]: the
    call raised, after the state-space step). *)
Definition update (s : SailBotSim) : SailBotSim * option (list byte) :=
  let s' := if String.eqb (controller s) "MANUAL" then state_space_model s else s in
  (s', encode_serial_output s').

End Codec.

(** ** The fake serial interface *)

(** [delta_t] *)
Definition delta_t : Q := 0.5.

Record SailBotSimSerialInterface := {
  sailbots : list SailBotSim;
  next_time : Q;
}.

(** The fleet [SailBotSimSerialInterface.__init__] creates. *)
Definition default_sailbots : list SailBotSim := [new_SailBotSim "1234567890123456"].

(** The thread running [run]: still in its [while True] loop, or ended by an
    exception raised in it. *)
Inductive ThreadState :=
  | Looping (d : SailBotSimSerialInterface)
  | Terminated (e : PyExn) (d : SailBotSimSerialInterface).

(** What happens to the interface: the loop observes the clock
    ([time.time()] returns [t]), or a caller invokes [write(bytes_)]. *)
Inductive Event :=
  | Clock (t : Q)
  | Inbound (bytes_ : list byte).

Section Interface.

Variable hdlc_decode : list byte -> option (list byte).
Variable hdlc_encode : list byte -> list byte.
Variable payload_from_bytes : list byte -> option ProtocolPayload.
Variable payload_to_bytes : ProtocolPayload -> list byte.
Variable GATEWAY_ADDRESS_DEFAULT SWARM_ID_DEFAULT : string.
Variable PROTOCOL_VERSION : Z.

Local Abbreviation update :=
  (update hdlc_encode payload_to_bytes GATEWAY_ADDRESS_DEFAULT SWARM_ID_DEFAULT
     PROTOCOL_VERSION).
Local Abbreviation advertise :=
  (advertise hdlc_encode payload_to_bytes GATEWAY_ADDRESS_DEFAULT SWARM_ID_DEFAULT
     PROTOCOL_VERSION).
Local Abbreviation decode_serial_input :=
  (decode_serial_input hdlc_decode payload_from_bytes).

(** The bytes handed to [callback], one call per byte, in order. *)

(** [for sailbot in self.sailbots: for byte in sailbot.advertise(): ...] *)
Fixpoint advertise_all (bots : list SailBotSim) : outcome (list byte) :=
  match bots with
  | [] => Returned []
  | b :: rest =>
      match advertise b with
      | None => Raised ValueError []
      | Some bs =>
          match advertise_all rest with
          | Returned out => Returned (bs ++ out)
          | Raised e out => Raised e (bs ++ out)
          end
      end
  end.

(** [for sailbot in self.sailbots: for byte in sailbot.update(): ...] *)
Fixpoint update_all (bots : list SailBotSim) : outcome (list SailBotSim * list byte) :=
  match bots with
  | [] => Returned ([], [])
  | b :: rest =>
      let '(b', out) := update b in
      match out with
      | None => Raised ValueError (b' :: rest, [])
      | Some bs =>
          match update_all rest with
          | Returned (rest', out') => Returned (b' :: rest', bs ++ out')
          | Raised e (rest', out') => Raised e (b' :: rest', bs ++ out')
          end
      end
  end.

(** The start of [run]: the advertisements, then
    [next_time = time.time() + delta_t] with [time.time()] returning [t0]. *)
Definition run_start (bots : list SailBotSim) (t0 : Q)
  : outcome (SailBotSimSerialInterface * list byte) :=
  match advertise_all bots with
  | Returned out => Returned ({| sailbots := bots; next_time := (t0 + delta_t)%Q |}, out)
  | Raised e out => Raised e ({| sailbots := bots; next_time := 0 |}, out)
  end.

(** One iteration of [while True] in [run], [time.time()] returning
    [current_time]. *)
Definition loop_iteration (current_time : Q) (d : SailBotSimSerialInterface)
  : outcome (SailBotSimSerialInterface * list byte) :=
  if Qle_bool (next_time d) current_time then
    match update_all (sailbots d) with
    | Returned (bots', out) =>
        Returned ({| sailbots := bots'; next_time := (current_time + delta_t)%Q |}, out)
    | Raised e (bots', out) =>
        Raised e ({| sailbots := bots'; next_time := next_time d |}, out)
    end
  else Returned (d, []).

(** [for sailbot in self.sailbots: sailbot.decode_serial_input(bytes_)] *)
Fixpoint write_all (bytes_ : list byte) (bots : list SailBotSim) : outcome (list SailBotSim) :=
  match bots with
  | [] => Returned []
  | b :: rest =>
      match decode_serial_input bytes_ b with
      | Raised e b' => Raised e (b' :: rest)
      | Returned b' =>
          match write_all bytes_ rest with
          | Returned rest' => Returned (b' :: rest')
          | Raised e rest' => Raised e (b' :: rest')
          end
      end
  end.

(** [SailBotSimSerialInterface.write] *)
Definition write (d : SailBotSimSerialInterface) (bytes_ : list byte)
  : outcome SailBotSimSerialInterface :=
  match write_all bytes_ (sailbots d) with
  | Returned bots => Returned {| sailbots := bots; next_time := next_time d |}
  | Raised e bots => Raised e {| sailbots := bots; next_time := next_time d |}
  end.

(** The interface under one event.  An exception of [write] goes to
    [write]'s caller, not to the thread; one raised in the loop ends the
    thread. *)
Definition thread_step (st : ThreadState) (ev : Event) : ThreadState :=
  match st with
  | Terminated _ _ => st
  | Looping d =>
      match ev with
      | Clock t =>
          match loop_iteration t d with
          | Returned (d', _) => Looping d'
          | Raised e (d', _) => Terminated e d'
          end
      | Inbound bs =>
          match write d bs with
          | Returned d' | Raised _ d' => Looping d'
          end
      end
  end.

Definition thread_run (st : ThreadState) (evs : list Event) : ThreadState :=
  fold_left thread_step evs st.

(** The vehicle states reachable from a new [SailBotSim] by [update] and
    [decode_serial_input] calls (a raised decode keeps its state). *)
Inductive reachable : SailBotSim -> Prop :=
  | reach_init addr : reachable (new_SailBotSim addr)
  | reach_update s : reachable s -> reachable (fst (update s))
  | reach_decode_ok s frame s' :
      reachable s -> decode_serial_input frame s = Returned s' -> reachable s'
  | reach_decode_raised s frame e s' :
      reachable s -> decode_serial_input frame s = Raised e s' -> reachable s'.

End Interface.

(** ** Concrete codec instances, used to run the model on examples *)

Definition passthrough_decode (frame : list byte) : option (list byte) := Some frame.

(** Modelled from the spec: [hdlc_decode] of [dotbot.hdlc], which "fails with a
    framing/parse error on ... truncated input"; here only that failure is
    kept, on the empty buffer, and any other buffer is passed on. *)
Definition truncation_checking_decode (frame : list byte) : option (list byte) :=
  match frame with
  | [] => None
  | _ => Some frame
  end.

Definition identity_encode (bs : list byte) : list byte := bs.

Definition constant_payload (p : ProtocolPayload) (raw : list byte) : option ProtocolPayload :=
  Some p.

Definition one_byte_to_bytes (p : ProtocolPayload) : list byte := [x01].

Definition example_gateway_address : string := "0000000000000000".
Definition example_swarm_id : string := "0000".

(** A move command to [dst]. *)
Definition move_to (dst left_x right_y : Z) : ProtocolPayload :=
  {| header := {| destination := dst; source := 0; swarm_id := 0;
                  application := SailBot; version := 1 |};
     values := CommandMoveRaw left_x right_y |}.

(** The interface right after [run] started at time 0. *)
Definition started_interface : SailBotSimSerialInterface :=
  {| sailbots := default_sailbots; next_time := 0.5 |}.

Definition sample_bot : SailBotSim := new_SailBotSim "1234567890123456".

(** The destination of [sample_bot], [0x1234567890123456]. *)
Definition sample_destination : Z := 1311768467284833366.

Definition sample_ticked : SailBotSim :=
  fst (update identity_encode one_byte_to_bytes example_gateway_address example_swarm_id 1
         sample_bot).

(** The final value of an outcome, whether returned or raised with. *)
Definition outcome_value {A} (o : outcome A) : A :=
  match o with Returned a | Raised _ a => a end.

(** Every address of the fleet is one [int(_, 16)] accepts. *)
Definition addresses_ok (bots : list SailBotSim) : Prop :=
  Forall (fun a => py_int16 a <> None) (map address bots).

(** ** Lemmas *)

(** *** [hex] and [int(_, 16)] *)

Lemma substring_0_length (r : string) : substring 0 (String.length r) r = r.
Proof. induction r as [|c r IH]; simpl; [reflexivity | now rewrite IH]. Qed.

Lemma drop2_0x (r : string) : drop2 (String "0" (String "x" r)) = r.
Proof.
  unfold drop2; simpl. rewrite Nat.sub_0_r. apply substring_0_length.
Qed.

Lemma string_append_assoc (a b c : string) :
  (a ++ (b ++ c))%string = ((a ++ b) ++ c)%string.
Proof. induction a as [|ch a IH]; simpl; [reflexivity | now rewrite IH]. Qed.

Lemma hex_digits_aux_app (f : nat) : forall n acc,
  hex_digits_aux f n acc = (hex_digits_aux f n EmptyString ++ acc)%string.
Proof.
  induction f as [|f IH]; intros n acc; simpl; [reflexivity|].
  destruct (n <? 16); [reflexivity|].
  rewrite (IH _ (String _ acc)), (IH _ (String _ EmptyString)).
  rewrite <- string_append_assoc. reflexivity.
Qed.

Lemma parse_hex_aux_app (s1 : string) : forall s2 a,
  parse_hex_aux (s1 ++ s2) a =
  match parse_hex_aux s1 a with Some v => parse_hex_aux s2 v | None => None end.
Proof.
  induction s1 as [|c s1 IH]; intros s2 a; simpl; [reflexivity|].
  destruct (hex_val c); [apply IH | reflexivity].
Qed.

Lemma hex_val_hex_char (d : Z) : 0 <= d < 16 -> hex_val (hex_char d) = Some d.
Proof.
  intros H.
  assert (d = 0 \/ d = 1 \/ d = 2 \/ d = 3 \/ d = 4 \/ d = 5 \/ d = 6 \/ d = 7 \/
          d = 8 \/ d = 9 \/ d = 10 \/ d = 11 \/ d = 12 \/ d = 13 \/ d = 14 \/ d = 15)
    as Hd by lia.
  repeat destruct Hd as [-> | Hd]; try reflexivity; subst; reflexivity.
Qed.

Lemma parse_hex_digits_aux (f : nat) : forall n,
  0 <= n < 16 ^ Z.of_nat f ->
  parse_hex_aux (hex_digits_aux f n EmptyString) 0 = Some n.
Proof.
  induction f as [|f IH]; intros n Hn.
  - simpl in *. f_equal. lia.
  - cbn [hex_digits_aux].
    assert (Hm : 0 <= n mod 16 < 16) by (apply Z.mod_pos_bound; lia).
    destruct (Z.ltb_spec n 16).
    + simpl. rewrite hex_val_hex_char by exact Hm.
      rewrite Z.mod_small by lia. reflexivity.
    + rewrite hex_digits_aux_app, parse_hex_aux_app.
      rewrite IH.
      * simpl. rewrite hex_val_hex_char by exact Hm.
        f_equal. pose proof (Z.div_mod n 16). lia.
      * rewrite Nat2Z.inj_succ, Z.pow_succ_r in Hn by lia.
        split; [apply Z.div_pos; lia|].
        apply Z.div_lt_upper_bound; lia.
Qed.

Lemma hex_digits_fuel (n : Z) :
  0 <= n -> n < 16 ^ Z.of_nat (S (Z.to_nat (Z.log2 n))).
Proof.
  intros Hn.
  rewrite Nat2Z.inj_succ, Z2Nat.id by apply Z.log2_nonneg.
  destruct (Z.eq_dec n 0) as [->|Hn0]; [simpl; lia|].
  destruct (Z.log2_spec n) as [_ Hlt]; [lia|].
  eapply Z.lt_le_trans; [exact Hlt|].
  replace 16 with (2 ^ 4) by reflexivity.
  rewrite <- Z.pow_mul_r by (pose proof (Z.log2_nonneg n); lia).
  apply Z.pow_le_mono_r; pose proof (Z.log2_nonneg n); lia.
Qed.

Lemma hex_digits_nonempty (n : Z) : hex_digits n <> EmptyString.
Proof.
  unfold hex_digits. cbn [hex_digits_aux].
  destruct (n <? 16); [discriminate|].
  rewrite hex_digits_aux_app. destruct (hex_digits_aux _ _ _); discriminate.
Qed.

(** [int(hex(n)[2:], 16) == n] for every non-negative [n]. *)
Lemma py_int16_hex (n : Z) : 0 <= n -> py_int16 (drop2 (py_hex n)) = Some n.
Proof.
  intros Hn. unfold py_hex.
  destruct (Z.ltb_spec n 0); [lia|].
  rewrite drop2_0x. unfold py_int16.
  pose proof (hex_digits_nonempty n) as Hne.
  destruct (hex_digits n) eqn:E; [contradiction|].
  rewrite <- E. apply parse_hex_digits_aux. split; [exact Hn|].
  apply hex_digits_fuel; exact Hn.
Qed.

Lemma Qplus_inject_Z_0 (q : Q) : (q + inject_Z 0)%Q = q.
Proof.
  destruct q as [n d]. unfold Qplus; simpl.
  rewrite Z.mul_1_r, Z.add_0_r, Pos.mul_1_r. reflexivity.
Qed.

(** *** Vehicle steps *)

Section VehicleFacts.

Variable hdlc_decode : list byte -> option (list byte).
Variable hdlc_encode : list byte -> list byte.
Variable payload_from_bytes : list byte -> option ProtocolPayload.
Variable payload_to_bytes : ProtocolPayload -> list byte.
Variable GATEWAY_ADDRESS_DEFAULT SWARM_ID_DEFAULT : string.
Variable PROTOCOL_VERSION : Z.

Local Abbreviation upd :=
  (update hdlc_encode payload_to_bytes GATEWAY_ADDRESS_DEFAULT SWARM_ID_DEFAULT
     PROTOCOL_VERSION).
Local Abbreviation enc_out :=
  (encode_serial_output hdlc_encode payload_to_bytes GATEWAY_ADDRESS_DEFAULT
     SWARM_ID_DEFAULT PROTOCOL_VERSION).
Local Abbreviation dec_in :=
  (decode_serial_input hdlc_decode payload_from_bytes).
Local Abbreviation dec_frame := (decode_frame hdlc_decode payload_from_bytes).

(** A decode changes only the control fields. *)
Lemma decode_serial_input_frame (frame : list byte) (s : SailBotSim) :
  let s' := outcome_value (dec_in frame s) in
  address s' = address s /\ direction s' = direction s /\
  wind_angle s' = wind_angle s /\ x s' = x s /\ y s' = y s.
Proof using hdlc_decode payload_from_bytes.
  unfold decode_serial_input.
  destruct (dec_frame frame) as [[p|]|e ?]; simpl; [|repeat split..].
  destruct (String.eqb _ _); [destruct (values p)|]; simpl; repeat split.
Qed.

Lemma update_address (s : SailBotSim) : address (fst (upd s)) = address s.
Proof.
  unfold update; simpl.
  destruct (String.eqb _ _); [unfold state_space_model; destruct (convert_cartesian_to_geographical _ _ _)|]; reflexivity.
Qed.

Lemma update_controller (s : SailBotSim) : controller (fst (upd s)) = controller s.
Proof.
  unfold update; simpl.
  destruct (String.eqb _ _); [unfold state_space_model; destruct (convert_cartesian_to_geographical _ _ _)|]; reflexivity.
Qed.

Lemma update_manual (s : SailBotSim) :
  controller s = "MANUAL"%string -> fst (upd s) = state_space_model s.
Proof.
  intros H. unfold update; simpl. now rewrite H.
Qed.

(** With parsable addresses, [encode_serial_output] does not raise. *)
Lemma encode_serial_output_some (s : SailBotSim) :
  py_int16 GATEWAY_ADDRESS_DEFAULT <> None -> py_int16 SWARM_ID_DEFAULT <> None ->
  py_int16 (address s) <> None -> exists bs, enc_out s = Some bs.
Proof.
  intros Hg Hs Ha. unfold encode_serial_output, sim_header.
  destruct (py_int16 GATEWAY_ADDRESS_DEFAULT); [|contradiction].
  destruct (py_int16 (address s)); [|contradiction].
  destruct (py_int16 SWARM_ID_DEFAULT); [|contradiction].
  eauto.
Qed.

Lemma state_space_model_fields (s : SailBotSim) :
  let s' := state_space_model s in
  x s' = (x s + inject_Z (rudder_slider s))%Q /\
  y s' = (y s + inject_Z (sail_slider s))%Q /\
  (latitude s', longitude s') = convert_cartesian_to_geographical s (x s') (y s') /\
  direction s' = (direction s + 10) mod 360 /\
  wind_angle s' = (- direction s' + true_wind_angle s) mod 360 /\
  address s' = address s /\ earth_radius_km s' = earth_radius_km s /\
  origin_coord_latitude s' = origin_coord_latitude s /\
  origin_coord_longitude s' = origin_coord_longitude s /\
  cos_phi_0 s' = cos_phi_0 s /\ true_wind_angle s' = true_wind_angle s /\
  speed s' = speed s /\ ang_speed s' = ang_speed s /\
  rudder_slider s' = rudder_slider s /\ sail_slider s' = sail_slider s /\
  controller s' = controller s.
Proof.
  unfold state_space_model.
  destruct (convert_cartesian_to_geographical s _ _) as [lat lon] eqn:E.
  cbn [x y latitude longitude direction wind_angle address earth_radius_km
       origin_coord_latitude origin_coord_longitude cos_phi_0 true_wind_angle
       speed ang_speed rudder_slider sail_slider controller].
  repeat split.
Qed.

Lemma tick_iter_still (n : nat) (s : SailBotSim) :
  controller s = "MANUAL"%string -> rudder_slider s = 0 -> sail_slider s = 0 ->
  0 <= direction s < 360 ->
  let s' := Nat.iter n (fun s => fst (upd s)) s in
  controller s' = "MANUAL"%string /\ rudder_slider s' = 0 /\ sail_slider s' = 0 /\
  x s' = x s /\ y s' = y s /\ direction s' = (direction s + 10 * Z.of_nat n) mod 360.
Proof.
  intros Hc Hr Hs Hd. cbv zeta. induction n as [|n IH].
  - cbn [Nat.iter nat_rect]. rewrite Z.add_0_r, Z.mod_small by exact Hd. tauto.
  - rewrite Nat.iter_succ. destruct IH as (Hc' & Hr' & Hs' & Hx & Hy & Hdir).
    rewrite update_manual by exact Hc'.
    destruct (state_space_model_fields (Nat.iter n (fun s => fst (upd s)) s))
      as (Ex & Ey & _ & Edir & _ & _ & _ & _ & _ & _ & _ & _ & _ & Er & Es & Ec).
    rewrite Ex, Ey, Edir, Er, Es, Ec, Hr', Hs', !Qplus_inject_Z_0, Hx, Hy, Hdir.
    repeat split; auto.
    rewrite Zplus_mod_idemp_l. f_equal. lia.
Qed.

End VehicleFacts.

(** *** The interface *)

Section DriverFacts.

Variable hdlc_decode : list byte -> option (list byte).
Variable hdlc_encode : list byte -> list byte.
Variable payload_from_bytes : list byte -> option ProtocolPayload.
Variable payload_to_bytes : ProtocolPayload -> list byte.
Variable GATEWAY_ADDRESS_DEFAULT SWARM_ID_DEFAULT : string.
Variable PROTOCOL_VERSION : Z.
Hypothesis gateway_ok : py_int16 GATEWAY_ADDRESS_DEFAULT <> None.
Hypothesis swarm_ok : py_int16 SWARM_ID_DEFAULT <> None.

Local Abbreviation upd :=
  (update hdlc_encode payload_to_bytes GATEWAY_ADDRESS_DEFAULT SWARM_ID_DEFAULT
     PROTOCOL_VERSION).
Local Abbreviation upd_all :=
  (update_all hdlc_encode payload_to_bytes GATEWAY_ADDRESS_DEFAULT SWARM_ID_DEFAULT
     PROTOCOL_VERSION).

(** With parsable addresses, a tick pass never raises: it updates every
    vehicle in order. *)
Lemma update_all_ok (bots : list SailBotSim) :
  addresses_ok bots ->
  exists out, upd_all bots = Returned (map (fun s => fst (upd s)) bots, out).
Proof.
  unfold addresses_ok. induction bots as [|b rest IH]; intros Hok.
  - simpl. eauto.
  - inversion Hok as [|? ? Hb Hrest]; subst.
    destruct (encode_serial_output_some hdlc_encode payload_to_bytes
                GATEWAY_ADDRESS_DEFAULT SWARM_ID_DEFAULT PROTOCOL_VERSION
                (fst (upd b)) gateway_ok swarm_ok) as [bs Hbs].
    { rewrite update_address. exact Hb. }
    destruct (IH Hrest) as [out Hout].
    assert (Hsnd : snd (upd b) = Some bs) by exact Hbs.
    cbn [update_all map].
    destruct (upd b) as [b' o] eqn:Eu. simpl in Hsnd |- *. subst o.
    rewrite Hout. eauto.
Qed.

Lemma map_address_update (bots : list SailBotSim) :
  map address (map (fun s => fst (upd s)) bots) = map address bots.
Proof.
  induction bots as [|b rest IH]; cbn [map]; [reflexivity|].
  rewrite update_address, IH. reflexivity.
Qed.

Lemma write_all_addresses (frame : list byte) (bots : list SailBotSim) :
  map address (outcome_value (write_all hdlc_decode payload_from_bytes frame bots))
  = map address bots.
Proof.
  induction bots as [|b rest IH]; simpl; [reflexivity|].
  pose proof (decode_serial_input_frame hdlc_decode payload_from_bytes frame b)
    as (Ha & _).
  destruct (decode_serial_input hdlc_decode payload_from_bytes frame b) as [b'|e b'];
    simpl in Ha |- *.
  - destruct (write_all hdlc_decode payload_from_bytes frame rest) as [r|e r];
      simpl in IH |- *; rewrite Ha, IH; reflexivity.
  - rewrite Ha. reflexivity.
Qed.

(** No event ends the thread while the addresses parse. *)
Lemma thread_run_looping (evs : list Event) : forall d,
  addresses_ok (sailbots d) ->
  exists d', thread_run hdlc_decode hdlc_encode payload_from_bytes payload_to_bytes
               GATEWAY_ADDRESS_DEFAULT SWARM_ID_DEFAULT PROTOCOL_VERSION (Looping d) evs
             = Looping d' /\ addresses_ok (sailbots d').
Proof.
  induction evs as [|ev evs IH]; intros d Hok; [exists d; auto|].
  unfold thread_run. cbn [fold_left]. fold (thread_run hdlc_decode hdlc_encode
    payload_from_bytes payload_to_bytes GATEWAY_ADDRESS_DEFAULT SWARM_ID_DEFAULT
    PROTOCOL_VERSION).
  destruct ev as [t|bs]; simpl.
  - unfold loop_iteration. destruct (Qle_bool (next_time d) t).
    + destruct (update_all_ok (sailbots d) Hok) as [out Hout].
      rewrite Hout. apply IH. simpl. unfold addresses_ok.
      rewrite map_address_update. exact Hok.
    + apply IH. exact Hok.
  - unfold write.
    pose proof (write_all_addresses bs (sailbots d)) as Ha.
    destruct (write_all hdlc_decode payload_from_bytes bs (sailbots d)) as [r|e r];
      apply IH; simpl in Ha |- *; unfold addresses_ok; rewrite Ha; exact Hok.
Qed.

End DriverFacts.

(** ** The claims *)

Section Claims.

Variable hdlc_decode : list byte -> option (list byte).
Variable hdlc_encode : list byte -> list byte.
Variable payload_from_bytes : list byte -> option ProtocolPayload.
Variable payload_to_bytes : ProtocolPayload -> list byte.
Variable GATEWAY_ADDRESS_DEFAULT SWARM_ID_DEFAULT : string.
Variable PROTOCOL_VERSION : Z.

Local Abbreviation upd :=
  (update hdlc_encode payload_to_bytes GATEWAY_ADDRESS_DEFAULT SWARM_ID_DEFAULT
     PROTOCOL_VERSION).
Local Abbreviation enc_out :=
  (encode_serial_output hdlc_encode payload_to_bytes GATEWAY_ADDRESS_DEFAULT
     SWARM_ID_DEFAULT PROTOCOL_VERSION).
Local Abbreviation dec_in := (decode_serial_input hdlc_decode payload_from_bytes).

(** C1: on a vehicle in mode ["MANUAL"], one [update] runs one
    [state_space_model] tick: [x] grows by [rudder_slider], [y] by
    [sail_slider], [(latitude, longitude)] are the cartesian-to-geographical
    transform of the new [(x, y)], the heading ([direction]) becomes
    [(direction + 10) mod 360], the wind angle becomes
    [(true_wind_angle - direction) mod 360] with the new heading, and every
    other field is unchanged. *)
Theorem update_manual_tick (s : SailBotSim) :
  controller s = "MANUAL"%string ->
  let s' := fst (upd s) in
  x s' = (x s + inject_Z (rudder_slider s))%Q /\
  y s' = (y s + inject_Z (sail_slider s))%Q /\
  (latitude s', longitude s') = convert_cartesian_to_geographical s (x s') (y s') /\
  direction s' = (direction s + 10) mod 360 /\
  wind_angle s' = (true_wind_angle s - direction s') mod 360 /\
  address s' = address s /\ earth_radius_km s' = earth_radius_km s /\
  origin_coord_latitude s' = origin_coord_latitude s /\
  origin_coord_longitude s' = origin_coord_longitude s /\
  cos_phi_0 s' = cos_phi_0 s /\ true_wind_angle s' = true_wind_angle s /\
  speed s' = speed s /\ ang_speed s' = ang_speed s /\
  rudder_slider s' = rudder_slider s /\ sail_slider s' = sail_slider s /\
  controller s' = controller s.
Proof.
  intros Hc. cbv zeta. rewrite update_manual by exact Hc.
  destruct (state_space_model_fields s)
    as (Ex & Ey & Ell & Edir & Ewind & Hrest).
  repeat split; try tauto.
  rewrite Ewind. f_equal. lia.
Qed.

(** C4: over exact arithmetic, converting geographical coordinates to
    cartesian ones and back, with the constants [__init__] sets, returns the
    original [(latitude, longitude)]. *)
Theorem geographical_cartesian_roundtrip (addr : string) (lat lon : Q) :
  let s := new_SailBotSim addr in
  let xy := convert_geographical_to_cartesian s lat lon in
  let ll := convert_cartesian_to_geographical s (fst xy) (snd xy) in
  (fst ll == lat /\ snd ll == lon)%Q.
Proof.
  cbv zeta. unfold convert_cartesian_to_geographical, convert_geographical_to_cartesian.
  cbn [fst snd new_SailBotSim sailbot_init_fields earth_radius_km cos_phi_0
       origin_coord_latitude origin_coord_longitude].
  unfold math_pi.
  split; field; repeat split; vm_compute; intro H; discriminate.
Qed.

(** C5: when the frame decodes to a move command addressed to the vehicle
    (the vehicle's [address] is [hex(destination)[2:]]), [decode_serial_input]
    sets the mode to ["MANUAL"] and stores [left_x] and [right_y], read as
    signed bytes ([v - 256] when [v > 127], else [v]), into [rudder_slider]
    and [sail_slider]. *)
Theorem decode_move_command (frame raw : list byte) (p : ProtocolPayload)
    (s : SailBotSim) (left_x right_y : Z) :
  hdlc_decode frame = Some raw ->
  payload_from_bytes raw = Some p ->
  values p = CommandMoveRaw left_x right_y ->
  address s = drop2 (py_hex (destination (header p))) ->
  exists s', dec_in frame s = Returned s' /\
    controller s' = "MANUAL"%string /\
    rudder_slider s' = (if left_x >? 127 then left_x - 256 else left_x) /\
    sail_slider s' = (if right_y >? 127 then right_y - 256 else right_y).
Proof.
  intros Hd Hp Hv Ha.
  unfold decode_serial_input, decode_frame. rewrite Hd, Hp, Ha, String.eqb_refl, Hv.
  eexists. split; [reflexivity|]. simpl. repeat split.
Qed.

(** C6: when the frame decodes to a payload whose destination is not the
    vehicle's address (numerically, or as the code compares it, the string
    [hex(destination)[2:]] against [address]), [decode_serial_input] returns
    and leaves the vehicle state unchanged. *)
Theorem decode_other_destination (frame raw : list byte) (p : ProtocolPayload)
    (s : SailBotSim) :
  hdlc_decode frame = Some raw ->
  payload_from_bytes raw = Some p ->
  0 <= destination (header p) ->
  (py_int16 (address s) <> Some (destination (header p)) \/
   address s <> drop2 (py_hex (destination (header p)))) ->
  dec_in frame s = Returned s.
Proof.
  intros Hd Hp Hpos Hne.
  unfold decode_serial_input, decode_frame. rewrite Hd, Hp.
  destruct (String.eqb_spec (address s) (drop2 (py_hex (destination (header p)))))
    as [Heq|Hneq]; [|reflexivity].
  exfalso. destruct Hne as [Hne|Hne]; apply Hne; [|exact Heq].
  rewrite Heq. apply py_int16_hex. exact Hpos.
Qed.

(** C10: on a vehicle whose mode is not ["MANUAL"], [update] leaves the
    state as it is and still returns [encode_serial_output] of it. *)
Theorem update_not_manual (s : SailBotSim) :
  controller s <> "MANUAL"%string -> upd s = (s, enc_out s).
Proof.
  intros Hc. unfold update.
  destruct (String.eqb_spec (controller s) "MANUAL"); [contradiction|reflexivity].
Qed.

(** C7: in every state reachable from a new [SailBotSim] through [update] and
    [decode_serial_input] calls, the heading ([direction]) and [wind_angle]
    both lie in [[0, 360)]. *)
Theorem reachable_angles_in_range (s : SailBotSim) :
  reachable hdlc_decode hdlc_encode payload_from_bytes payload_to_bytes
    GATEWAY_ADDRESS_DEFAULT SWARM_ID_DEFAULT PROTOCOL_VERSION s ->
  0 <= direction s < 360 /\ 0 <= wind_angle s < 360.
Proof.
  induction 1 as [addr | s Hr IH | s frame s' Hr IH Hd | s frame e s' Hr IH Hd].
  - unfold new_SailBotSim. simpl. lia.
  - unfold update. cbn [fst].
    destruct (String.eqb (controller s) "MANUAL"); [|exact IH].
    destruct (state_space_model_fields s) as (_ & _ & _ & Edir & Ewind & _).
    rewrite Ewind, Edir. split; apply Z.mod_pos_bound; lia.
  - pose proof (decode_serial_input_frame hdlc_decode payload_from_bytes frame s)
      as (_ & Edir & Ewind & _).
    rewrite Hd in Edir, Ewind. simpl in Edir, Ewind. rewrite Edir, Ewind. exact IH.
  - pose proof (decode_serial_input_frame hdlc_decode payload_from_bytes frame s)
      as (_ & Edir & Ewind & _).
    rewrite Hd in Edir, Ewind. simpl in Edir, Ewind. rewrite Edir, Ewind. exact IH.
Qed.

(** C8: from a vehicle in mode ["MANUAL"] with [rudder_slider = 0] and
    [sail_slider = 0] and a heading in [0..359] (the range of the data model,
    kept by every reachable state), 36 [update] ticks bring the heading
    ([direction]) back to its starting value and leave [(x, y)] unchanged. *)
Theorem ticks_36_restore_heading (s : SailBotSim) :
  controller s = "MANUAL"%string -> rudder_slider s = 0 -> sail_slider s = 0 ->
  0 <= direction s < 360 ->
  let s' := Nat.iter 36 (fun s => fst (upd s)) s in
  direction s' = direction s /\ x s' = x s /\ y s' = y s.
Proof.
  intros Hc Hr Hs Hd.
  destruct (tick_iter_still hdlc_encode payload_to_bytes GATEWAY_ADDRESS_DEFAULT
              SWARM_ID_DEFAULT PROTOCOL_VERSION 36 s Hc Hr Hs Hd)
    as (_ & _ & _ & Hx & Hy & Hdir).
  cbv zeta. split; [|split; assumption].
  rewrite Hdir. replace (10 * Z.of_nat 36) with (1 * 360) by reflexivity.
  rewrite Z.mod_add, Z.mod_small by lia. reflexivity.
Qed.

(** C2 (as the code does it): [write] catches nothing.  When the codec fails
    on the buffer, [write] raises the codec's exception to its caller at the
    first vehicle, and no vehicle's state is changed. *)
Theorem write_raises_on_decode_failure (d : SailBotSimSerialInterface)
    (frame : list byte) (e : PyExn) (r : option ProtocolPayload) :
  sailbots d <> [] ->
  decode_frame hdlc_decode payload_from_bytes frame = Raised e r ->
  write hdlc_decode payload_from_bytes d frame = Raised e d.
Proof.
  intros Hne Hf. destruct d as [bots nt]. simpl in Hne.
  destruct bots as [|b rest]; [contradiction|].
  unfold write. cbn [write_all sailbots next_time].
  unfold decode_serial_input at 1. rewrite Hf. reflexivity.
Qed.

(** C3 (as the code does it): a loop iteration that observes [current_time]
    at or past [next_time] runs the tick pass and reschedules [next_time] to
    [current_time + delta_t], the observed time plus the interval. *)
Theorem loop_iteration_reschedules_from_observed_time (current_time : Q)
    (d : SailBotSimSerialInterface) (bots' : list SailBotSim) (out : list byte) :
  Qle_bool (next_time d) current_time = true ->
  update_all hdlc_encode payload_to_bytes GATEWAY_ADDRESS_DEFAULT SWARM_ID_DEFAULT
    PROTOCOL_VERSION (sailbots d) = Returned (bots', out) ->
  loop_iteration hdlc_encode payload_to_bytes GATEWAY_ADDRESS_DEFAULT SWARM_ID_DEFAULT
    PROTOCOL_VERSION current_time d
  = Returned ({| sailbots := bots'; next_time := (current_time + delta_t)%Q |}, out).
Proof.
  intros Hle Hup. unfold loop_iteration. rewrite Hle, Hup. reflexivity.
Qed.

(** C9 (as the code does it): the interface has no stop operation.  Whatever
    events come (clock observations, [write] calls, raising or not), the
    thread stays in its [while True] loop, and its next observation at or past
    [next_time] runs a full tick pass; only an exception inside the loop
    (here excluded by parsable addresses) would end it. *)
Theorem thread_keeps_ticking (d : SailBotSimSerialInterface) (evs : list Event) :
  py_int16 GATEWAY_ADDRESS_DEFAULT <> None -> py_int16 SWARM_ID_DEFAULT <> None ->
  addresses_ok (sailbots d) ->
  exists d', thread_run hdlc_decode hdlc_encode payload_from_bytes payload_to_bytes
               GATEWAY_ADDRESS_DEFAULT SWARM_ID_DEFAULT PROTOCOL_VERSION (Looping d) evs
             = Looping d' /\
    forall t, Qle_bool (next_time d') t = true ->
      exists out, loop_iteration hdlc_encode payload_to_bytes GATEWAY_ADDRESS_DEFAULT
                    SWARM_ID_DEFAULT PROTOCOL_VERSION t d'
        = Returned ({| sailbots := map (fun s => fst (upd s)) (sailbots d');
                       next_time := (t + delta_t)%Q |}, out).
Proof.
  intros Hg Hs Hok.
  destruct (thread_run_looping hdlc_decode hdlc_encode payload_from_bytes
              payload_to_bytes GATEWAY_ADDRESS_DEFAULT SWARM_ID_DEFAULT PROTOCOL_VERSION
              Hg Hs evs d Hok) as (d' & Hrun & Hok').
  exists d'. split; [exact Hrun|].
  intros t Hle.
  destruct (update_all_ok hdlc_encode payload_to_bytes GATEWAY_ADDRESS_DEFAULT
              SWARM_ID_DEFAULT PROTOCOL_VERSION Hg Hs (sailbots d') Hok') as (out & Hout).
  exists out. unfold loop_iteration. rewrite Hle, Hout. reflexivity.
Qed.

End Claims.

(** ** Witnesses and counterexamples on concrete inputs *)

Lemma update_manual_tick_witness :
  controller sample_bot = "MANUAL"%string /\
  direction (fst (update identity_encode one_byte_to_bytes example_gateway_address
                    example_swarm_id 1 sample_bot)) = 10 /\
  wind_angle (fst (update identity_encode one_byte_to_bytes example_gateway_address
                     example_swarm_id 1 sample_bot)) = 20.
Proof.
  destruct (update_manual_tick identity_encode one_byte_to_bytes example_gateway_address
              example_swarm_id 1 sample_bot eq_refl)
    as (_ & _ & _ & Hd & Hw & _).
  split; [reflexivity|]. rewrite Hw, Hd. split; reflexivity.
Defined.

Lemma decode_move_command_witness :
  (exists s', decode_serial_input passthrough_decode
                (constant_payload (move_to sample_destination 200 50)) [x00] sample_bot
              = Returned s' /\ controller s' = "MANUAL"%string /\
              rudder_slider s' = -56 /\ sail_slider s' = 50) /\
  (exists s', decode_serial_input passthrough_decode
                (constant_payload (move_to sample_destination 50 200)) [x00] sample_bot
              = Returned s' /\ controller s' = "MANUAL"%string /\
              rudder_slider s' = 50 /\ sail_slider s' = -56).
Proof.
  split.
  - destruct (decode_move_command passthrough_decode
                (constant_payload (move_to sample_destination 200 50)) [x00] [x00]
                (move_to sample_destination 200 50) sample_bot 200 50
                eq_refl eq_refl eq_refl ltac:(vm_compute; reflexivity))
      as (s' & Hs & Hc & Hr & Hsl).
    exists s'. rewrite Hr, Hsl. repeat split; assumption.
  - destruct (decode_move_command passthrough_decode
                (constant_payload (move_to sample_destination 50 200)) [x00] [x00]
                (move_to sample_destination 50 200) sample_bot 50 200
                eq_refl eq_refl eq_refl ltac:(vm_compute; reflexivity))
      as (s' & Hs & Hc & Hr & Hsl).
    exists s'. rewrite Hr, Hsl. repeat split; assumption.
Defined.

Lemma decode_other_destination_witness :
  decode_serial_input passthrough_decode (constant_payload (move_to 2748 200 50))
    [x00] sample_bot = Returned sample_bot.
Proof.
  apply (decode_other_destination passthrough_decode
           (constant_payload (move_to 2748 200 50)) [x00] [x00] (move_to 2748 200 50)
           sample_bot eq_refl eq_refl).
  - simpl. lia.
  - left. vm_compute. congruence.
Defined.

Lemma update_not_manual_witness :
  let s := set_command sample_bot "AUTONOMOUS" 5 (-5) in
  update identity_encode one_byte_to_bytes example_gateway_address example_swarm_id 1 s
  = (s, encode_serial_output identity_encode one_byte_to_bytes example_gateway_address
          example_swarm_id 1 s).
Proof.
  apply update_not_manual. cbv [set_command controller]. discriminate.
Defined.

Lemma reachable_angles_in_range_witness :
  let s := fst (update identity_encode one_byte_to_bytes example_gateway_address
                  example_swarm_id 1 sample_bot) in
  0 <= direction s < 360 /\ 0 <= wind_angle s < 360.
Proof.
  apply (reachable_angles_in_range passthrough_decode identity_encode
           (constant_payload (move_to sample_destination 200 50)) one_byte_to_bytes
           example_gateway_address example_swarm_id 1).
  apply reach_update, reach_init.
Defined.

Lemma ticks_36_restore_heading_witness :
  let s' := Nat.iter 36 (fun s => fst (update identity_encode one_byte_to_bytes
                                         example_gateway_address example_swarm_id 1 s))
              sample_bot in
  direction s' = direction sample_bot /\ x s' = x sample_bot /\ y s' = y sample_bot.
Proof.
  apply ticks_36_restore_heading; try reflexivity. vm_compute. split; [discriminate | reflexivity].
Defined.

Lemma write_raises_on_decode_failure_witness :
  write passthrough_decode (fun _ => None) started_interface [x00]
  = Raised ProtocolPayloadParserException started_interface.
Proof.
  apply (write_raises_on_decode_failure passthrough_decode (fun _ => None)
           started_interface [x00] ProtocolPayloadParserException None).
  - cbv [started_interface sailbots default_sailbots]. discriminate.
  - reflexivity.
Defined.

(** C2 fails: [write] on the empty (truncated) buffer raises the codec's
    [HDLCDecodeException] to its caller. *)
Lemma write_truncated_buffer_raises :
  write truncation_checking_decode (constant_payload (move_to sample_destination 200 50))
    started_interface []
  = Raised HDLCDecodeException started_interface.
Proof. vm_compute. reflexivity. Qed.

Lemma loop_iteration_reschedules_from_observed_time_witness :
  exists d' out,
    loop_iteration identity_encode one_byte_to_bytes example_gateway_address
      example_swarm_id 1 0.7 started_interface = Returned (d', out) /\
    next_time d' = (0.7 + delta_t)%Q.
Proof.
  destruct (update_all identity_encode one_byte_to_bytes example_gateway_address
              example_swarm_id 1 (sailbots started_interface)) as [[bots' out]|e [bots' out]]
    eqn:E.
  - exists {| sailbots := bots'; next_time := (0.7 + delta_t)%Q |}, out.
    split; [|reflexivity].
    apply loop_iteration_reschedules_from_observed_time; [reflexivity | exact E].
  - exfalso. vm_compute in E. discriminate E.
Defined.

(** C3 fails: with [next_time = 0.5] and the clock observed at [0.7], the
    next due time becomes [1.2] ([now + delta_t]), not [1.0]
    ([due + delta_t]). *)
Lemma loop_iteration_phase_drift :
  match loop_iteration identity_encode one_byte_to_bytes example_gateway_address
          example_swarm_id 1 0.7 started_interface with
  | Returned (d', _) =>
      Qeq_bool (next_time d') (next_time started_interface + delta_t) = false /\
      Qeq_bool (next_time d') 1.2 = true
  | Raised _ _ => False
  end.
Proof. vm_compute. split; reflexivity. Qed.

Lemma thread_keeps_ticking_witness :
  exists d', thread_run passthrough_decode identity_encode
               (constant_payload (move_to sample_destination 200 50)) one_byte_to_bytes
               example_gateway_address example_swarm_id 1 (Looping started_interface)
               [Clock 0.5; Inbound [x00]; Clock 1.0] = Looping d'.
Proof.
  destruct (thread_keeps_ticking passthrough_decode identity_encode
              (constant_payload (move_to sample_destination 200 50)) one_byte_to_bytes
              example_gateway_address example_swarm_id 1 started_interface
              [Clock 0.5; Inbound [x00]; Clock 1.0])
    as (d' & Hrun & _).
  - vm_compute. discriminate.
  - vm_compute. discriminate.
  - unfold addresses_ok. constructor; [vm_compute; discriminate | constructor].
  - exists d'. exact Hrun.
Defined.

(** C9 fails: no operation stops the loop.  After ticks and [write] calls
    (one raising, one applying a move command), the thread is still looping
    and its next due observation runs another tick pass. *)
Lemma thread_never_stopped :
  match thread_run truncation_checking_decode identity_encode
          (constant_payload (move_to sample_destination 0 0)) one_byte_to_bytes
          example_gateway_address example_swarm_id 1 (Looping started_interface)
          [Clock 0.5; Inbound []; Inbound [x00]; Clock 1.0; Clock 1.5; Clock 2.0] with
  | Looping d => map direction (sailbots d) = [40] /\ Qeq_bool (next_time d) 2.5 = true
  | Terminated _ _ => False
  end.
Proof. vm_compute. split; reflexivity. Qed.

(** ** Further properties of the simulator *)

Section ExtraFacts.

Variable hdlc_decode : list byte -> option (list byte).
Variable hdlc_encode : list byte -> list byte.
Variable payload_from_bytes : list byte -> option ProtocolPayload.
Variable payload_to_bytes : ProtocolPayload -> list byte.
Variable GATEWAY_ADDRESS_DEFAULT SWARM_ID_DEFAULT : string.
Variable PROTOCOL_VERSION : Z.

Local Abbreviation upd :=
  (update hdlc_encode payload_to_bytes GATEWAY_ADDRESS_DEFAULT SWARM_ID_DEFAULT
     PROTOCOL_VERSION).
Local Abbreviation enc_out :=
  (encode_serial_output hdlc_encode payload_to_bytes GATEWAY_ADDRESS_DEFAULT
     SWARM_ID_DEFAULT PROTOCOL_VERSION).
Local Abbreviation adv :=
  (advertise hdlc_encode payload_to_bytes GATEWAY_ADDRESS_DEFAULT SWARM_ID_DEFAULT
     PROTOCOL_VERSION).
Local Abbreviation dec_in := (decode_serial_input hdlc_decode payload_from_bytes).
Local Abbreviation reach :=
  (reachable hdlc_decode hdlc_encode payload_from_bytes payload_to_bytes
     GATEWAY_ADDRESS_DEFAULT SWARM_ID_DEFAULT PROTOCOL_VERSION).

Lemma decode_cases (frame : list byte) (s : SailBotSim) :
  outcome_value (dec_in frame s) = s \/
  exists a b, outcome_value (dec_in frame s) = set_command s "MANUAL" a b.
Proof using hdlc_decode payload_from_bytes.
  unfold decode_serial_input.
  destruct (decode_frame hdlc_decode payload_from_bytes frame) as [[p|]|e ?];
    simpl; [|left; reflexivity..].
  destruct (String.eqb _ _); [destruct (values p)|]; simpl;
    first [right; eexists; eexists; reflexivity | left; reflexivity].
Qed.

Lemma update_cases (s : SailBotSim) :
  fst (upd s) = (if String.eqb (controller s) "MANUAL" then state_space_model s else s).
Proof. reflexivity. Qed.

(** The transforms read only the constants of the state. *)
Lemma convert_cartesian_to_geographical_constants (s s' : SailBotSim) (a b : Q) :
  earth_radius_km s' = earth_radius_km s ->
  origin_coord_latitude s' = origin_coord_latitude s ->
  origin_coord_longitude s' = origin_coord_longitude s ->
  cos_phi_0 s' = cos_phi_0 s ->
  convert_cartesian_to_geographical s' a b = convert_cartesian_to_geographical s a b.
Proof.
  intros E1 E2 E3 E4. unfold convert_cartesian_to_geographical.
  rewrite E1, E2, E3, E4. reflexivity.
Qed.

End ExtraFacts.

Section Extras.

Variable hdlc_decode : list byte -> option (list byte).
Variable hdlc_encode : list byte -> list byte.
Variable payload_from_bytes : list byte -> option ProtocolPayload.
Variable payload_to_bytes : ProtocolPayload -> list byte.
Variable GATEWAY_ADDRESS_DEFAULT SWARM_ID_DEFAULT : string.
Variable PROTOCOL_VERSION : Z.

Local Abbreviation upd :=
  (update hdlc_encode payload_to_bytes GATEWAY_ADDRESS_DEFAULT SWARM_ID_DEFAULT
     PROTOCOL_VERSION).
Local Abbreviation enc_out :=
  (encode_serial_output hdlc_encode payload_to_bytes GATEWAY_ADDRESS_DEFAULT
     SWARM_ID_DEFAULT PROTOCOL_VERSION).
Local Abbreviation adv :=
  (advertise hdlc_encode payload_to_bytes GATEWAY_ADDRESS_DEFAULT SWARM_ID_DEFAULT
     PROTOCOL_VERSION).
Local Abbreviation dec_in := (decode_serial_input hdlc_decode payload_from_bytes).
Local Abbreviation reach :=
  (reachable hdlc_decode hdlc_encode payload_from_bytes payload_to_bytes
     GATEWAY_ADDRESS_DEFAULT SWARM_ID_DEFAULT PROTOCOL_VERSION).

(** X1: over exact arithmetic, converting cartesian coordinates to
    geographical ones and back, with the constants [__init__] sets, returns
    the original [(x, y)]. *)
Theorem cartesian_geographical_roundtrip (addr : string) (a b : Q) :
  let s := new_SailBotSim addr in
  let ll := convert_cartesian_to_geographical s a b in
  let xy := convert_geographical_to_cartesian s (fst ll) (snd ll) in
  (fst xy == a /\ snd xy == b)%Q.
Proof.
  cbv zeta. unfold convert_cartesian_to_geographical, convert_geographical_to_cartesian.
  cbn [fst snd]. unfold math_pi.
  split; field; repeat split; vm_compute; intro H; discriminate.
Qed.

(** X2: in every reachable state, [(latitude, longitude)] is the
    geographical point of [(x, y)]: the two position pairs stay consistent. *)
Theorem reachable_position_consistent (s : SailBotSim) :
  reach s ->
  let ll := convert_cartesian_to_geographical s (x s) (y s) in
  (fst ll == latitude s /\ snd ll == longitude s)%Q.
Proof.
  induction 1 as [addr | s Hr IH | s frame s' Hr IH Hd | s frame e s' Hr IH Hd];
    cbv zeta in *.
  - unfold new_SailBotSim, convert_cartesian_to_geographical,
      convert_geographical_to_cartesian.
    cbn [fst snd sailbot_init_fields earth_radius_km cos_phi_0 origin_coord_latitude
         origin_coord_longitude x y latitude longitude].
    unfold math_pi. split; field; repeat split; vm_compute; intro H; discriminate.
  - rewrite update_cases. destruct (String.eqb (controller s) "MANUAL"); [|exact IH].
    destruct (state_space_model_fields s)
      as (Ex & Ey & Ell & _ & _ & _ & E1 & E2 & E3 & E4 & _).
    rewrite (convert_cartesian_to_geographical_constants s _ _ _ E1 E2 E3 E4).
    rewrite <- Ell. split; reflexivity.
  - destruct (decode_cases hdlc_decode payload_from_bytes frame s) as [E|(a & b & E)];
      rewrite Hd in E; simpl in E; subst s'; [exact IH|].
    exact IH.
  - destruct (decode_cases hdlc_decode payload_from_bytes frame s) as [E|(a & b & E)];
      rewrite Hd in E; simpl in E; subst s'; [exact IH|].
    exact IH.
Qed.


(** X4: [n] [update] ticks of a vehicle in mode ["MANUAL"] move [x] by
    [n * rudder_slider], [y] by [n * sail_slider] and the heading to
    [(direction + 10 n) mod 360] (heading in [0..359]), keeping the mode and
    the control inputs. *)
Theorem manual_ticks (n : nat) (s : SailBotSim) :
  controller s = "MANUAL"%string -> 0 <= direction s < 360 ->
  let s' := Nat.iter n (fun s => fst (upd s)) s in
  (x s' == x s + inject_Z (Z.of_nat n) * inject_Z (rudder_slider s))%Q /\
  (y s' == y s + inject_Z (Z.of_nat n) * inject_Z (sail_slider s))%Q /\
  direction s' = (direction s + 10 * Z.of_nat n) mod 360 /\
  controller s' = controller s /\ rudder_slider s' = rudder_slider s /\
  sail_slider s' = sail_slider s.
Proof.
  intros Hc Hd. cbv zeta. induction n as [|n IH].
  - cbn [Nat.iter nat_rect]. rewrite Z.add_0_r, Z.mod_small by exact Hd.
    repeat split; try reflexivity; simpl; ring.
  - rewrite Nat.iter_succ. destruct IH as (Hx & Hy & Hdir & Hc' & Hr & Hs).
    rewrite update_manual by (rewrite Hc'; exact Hc).
    destruct (state_space_model_fields (Nat.iter n (fun s => fst (upd s)) s))
      as (Ex & Ey & _ & Edir & _ & _ & _ & _ & _ & _ & _ & _ & _ & Er & Es & Ec).
    rewrite Ex, Ey, Edir, Er, Es, Ec, Hr, Hs, Hdir.
    repeat split; try reflexivity.
    + rewrite Hx, Nat2Z.inj_succ, <- Z.add_1_r, inject_Z_plus. ring.
    + rewrite Hy, Nat2Z.inj_succ, <- Z.add_1_r, inject_Z_plus. ring.
    + rewrite Zplus_mod_idemp_l. f_equal. lia.
    + exact Hc'.
Qed.

(** X5: [update] never changes the address, the control inputs, the mode or
    the constants: only the position, heading and wind angle move. *)
Theorem update_keeps_controls (s : SailBotSim) :
  let s' := fst (upd s) in
  address s' = address s /\ rudder_slider s' = rudder_slider s /\
  sail_slider s' = sail_slider s /\ controller s' = controller s /\
  true_wind_angle s' = true_wind_angle s /\ earth_radius_km s' = earth_radius_km s /\
  origin_coord_latitude s' = origin_coord_latitude s /\
  origin_coord_longitude s' = origin_coord_longitude s /\ cos_phi_0 s' = cos_phi_0 s.
Proof.
  cbv zeta. rewrite update_cases.
  destruct (String.eqb (controller s) "MANUAL"); [|repeat split].
  destruct (state_space_model_fields s)
    as (_ & _ & _ & _ & _ & Ea & E1 & E2 & E3 & E4 & Et & _ & _ & Er & Es & Ec).
  repeat split; assumption.
Qed.

(** X6: [decode_serial_input], whether it returns or raises, never changes
    the position ([x], [y], [latitude], [longitude]), the heading, the wind
    angle or the address. *)
Theorem decode_keeps_pose (frame : list byte) (s : SailBotSim) :
  let s' := outcome_value (dec_in frame s) in
  x s' = x s /\ y s' = y s /\ latitude s' = latitude s /\ longitude s' = longitude s /\
  direction s' = direction s /\ wind_angle s' = wind_angle s /\ address s' = address s.
Proof.
  cbv zeta.
  destruct (decode_cases hdlc_decode payload_from_bytes frame s) as [E|(a & b & E)];
    rewrite E; repeat split.
Qed.

(** X7: decoding the same frame twice has the effect of decoding it once
    (same outcome, same state). *)
Theorem decode_idempotent (frame : list byte) (s : SailBotSim) :
  dec_in frame (outcome_value (dec_in frame s)) = dec_in frame s.
Proof.
  unfold decode_serial_input.
  destruct (decode_frame hdlc_decode payload_from_bytes frame) as [[p|]|e ?];
    simpl; try reflexivity.
  destruct (String.eqb_spec (address s) (drop2 (py_hex (destination (header p)))))
    as [Heq|Hneq].
  - destruct (values p) eqn:Ev; simpl; rewrite ?Heq, ?String.eqb_refl, ?Ev;
      reflexivity.
  - simpl. destruct (String.eqb_spec (address s) (drop2 (py_hex (destination (header p)))));
      [contradiction | reflexivity].
Qed.

(** X8: a frame addressed to the vehicle whose payload is not a move
    command (an advertisement, telemetry, any other type) leaves the vehicle
    unchanged, without raising. *)
Theorem decode_ignores_other_payloads (frame raw : list byte) (p : ProtocolPayload)
    (s : SailBotSim) :
  hdlc_decode frame = Some raw -> payload_from_bytes raw = Some p ->
  payload_type p <> CMD_MOVE_RAW ->
  dec_in frame s = Returned s.
Proof.
  intros Hd Hp Ht. unfold decode_serial_input, decode_frame. rewrite Hd, Hp.
  destruct (String.eqb _ _); [|reflexivity].
  unfold payload_type in Ht.
  destruct (values p); simpl in Ht |- *; [reflexivity..| contradiction | reflexivity].
Qed.

(** X9: a move command addressed to the vehicle followed by one [update]
    moves [x] by the signed [left_x] and [y] by the signed [right_y] and turns
    the heading by 10, whatever the vehicle's mode was before the command. *)
Theorem move_then_tick (frame raw : list byte) (p : ProtocolPayload) (s : SailBotSim)
    (left_x right_y : Z) :
  hdlc_decode frame = Some raw -> payload_from_bytes raw = Some p ->
  values p = CommandMoveRaw left_x right_y ->
  address s = drop2 (py_hex (destination (header p))) ->
  exists s', dec_in frame s = Returned s' /\
    let s'' := fst (upd s') in
    x s'' = (x s + inject_Z (signed_byte left_x))%Q /\
    y s'' = (y s + inject_Z (signed_byte right_y))%Q /\
    direction s'' = (direction s + 10) mod 360.
Proof.
  intros Hd Hp Hv Ha.
  unfold decode_serial_input, decode_frame. rewrite Hd, Hp, Ha, String.eqb_refl, Hv.
  eexists. split; [reflexivity|]. cbv zeta.
  rewrite update_manual by reflexivity.
  destruct (state_space_model_fields (set_command s "MANUAL" (signed_byte left_x)
                                        (signed_byte right_y)))
    as (Ex & Ey & _ & Edir & _).
  rewrite Ex, Ey, Edir. repeat split.
Qed.

(** X10: when the frame decodes, [write] never raises and hands it to every
    vehicle: each vehicle whose address is [hex(destination)[2:]] takes the
    move command (mode ["MANUAL"], signed inputs), every other vehicle, and
    every vehicle for a payload that is not a move command, is unchanged; the
    schedule is untouched. *)
Theorem write_broadcast (d : SailBotSimSerialInterface) (frame raw : list byte)
    (p : ProtocolPayload) :
  hdlc_decode frame = Some raw -> payload_from_bytes raw = Some p ->
  write hdlc_decode payload_from_bytes d frame =
  Returned {| sailbots :=
                map (fun s =>
                       if String.eqb (address s) (drop2 (py_hex (destination (header p))))
                       then match values p with
                            | CommandMoveRaw l r =>
                                set_command s "MANUAL" (signed_byte l) (signed_byte r)
                            | _ => s
                            end
                       else s) (sailbots d);
              next_time := next_time d |}.
Proof.
  intros Hd Hp. destruct d as [bots nt]. unfold write. cbn [sailbots next_time].
  assert (Hw : forall bots,
    write_all hdlc_decode payload_from_bytes frame bots =
    Returned (map (fun s =>
                if String.eqb (address s) (drop2 (py_hex (destination (header p))))
                then match values p with
                     | CommandMoveRaw l r =>
                         set_command s "MANUAL" (signed_byte l) (signed_byte r)
                     | _ => s
                     end
                else s) bots)).
  { induction bots0 as [|b rest IH]; [reflexivity|].
    cbn [write_all map]. unfold decode_serial_input at 1, decode_frame.
    rewrite Hd, Hp, IH.
    destruct (String.eqb _ _); [destruct (values p)|]; reflexivity. }
  rewrite Hw. reflexivity.
Qed.

(** X11: [write], whether it returns or raises, keeps the schedule
    ([next_time]), the number of vehicles and their addresses. *)
Theorem write_keeps_schedule (d : SailBotSimSerialInterface) (frame : list byte) :
  let d' := outcome_value (write hdlc_decode payload_from_bytes d frame) in
  next_time d' = next_time d /\ map address (sailbots d') = map address (sailbots d).
Proof.
  cbv zeta. unfold write.
  pose proof (write_all_addresses hdlc_decode payload_from_bytes frame (sailbots d)) as Ha.
  destruct (write_all hdlc_decode payload_from_bytes frame (sailbots d));
    simpl in Ha |- *; split; auto.
Qed.



(** X14: after a pass fired at [current_time], an observation of the clock
    before [current_time + delta_t] does nothing: no frame, no change, so two
    passes are at least [delta_t] apart. *)
Theorem passes_spaced (current_time later : Q) (d d' : SailBotSimSerialInterface)
    (out : list byte) :
  Qle_bool (next_time d) current_time = true ->
  loop_iteration hdlc_encode payload_to_bytes GATEWAY_ADDRESS_DEFAULT SWARM_ID_DEFAULT
    PROTOCOL_VERSION current_time d = Returned (d', out) ->
  (later < current_time + delta_t)%Q ->
  loop_iteration hdlc_encode payload_to_bytes GATEWAY_ADDRESS_DEFAULT SWARM_ID_DEFAULT
    PROTOCOL_VERSION later d' = Returned (d', []).
Proof.
  intros Hle Hit Hlt. unfold loop_iteration in Hit. rewrite Hle in Hit.
  destruct (update_all _ _ _ _ _ (sailbots d)) as [[bots' o]|e [bots' o]];
    [|discriminate Hit].
  injection Hit as <- <-. unfold loop_iteration. cbn [next_time].
  destruct (Qle_bool (current_time + delta_t) later) eqn:E; [|reflexivity].
  apply Qle_bool_iff in E. exfalso. apply (Qlt_not_le _ _ Hlt E).
Qed.


End Extras.

(** ** Witnesses for the further properties *)

Lemma reachable_position_consistent_witness :
  let ll := convert_cartesian_to_geographical sample_ticked (x sample_ticked)
              (y sample_ticked) in
  (fst ll == latitude sample_ticked /\ snd ll == longitude sample_ticked)%Q.
Proof.
  apply (reachable_position_consistent passthrough_decode identity_encode
           (constant_payload (move_to sample_destination 200 50)) one_byte_to_bytes
           example_gateway_address example_swarm_id 1).
  apply reach_update, reach_init.
Defined.


Lemma manual_ticks_witness :
  direction (Nat.iter 3 (fun s => fst (update identity_encode one_byte_to_bytes
                                          example_gateway_address example_swarm_id 1 s))
               (set_command sample_bot "MANUAL" 2 (-3))) = 30.
Proof.
  destruct (manual_ticks identity_encode one_byte_to_bytes example_gateway_address
              example_swarm_id 1 3 (set_command sample_bot "MANUAL" 2 (-3)) eq_refl
              ltac:(vm_compute; split; [discriminate | reflexivity]))
    as (_ & _ & Hdir & _).
  rewrite Hdir. reflexivity.
Defined.

Lemma decode_ignores_other_payloads_witness :
  decode_serial_input passthrough_decode
    (constant_payload {| header := header (move_to sample_destination 0 0);
                         values := Advertisement |}) [x00] sample_bot
  = Returned sample_bot.
Proof.
  apply (decode_ignores_other_payloads passthrough_decode
           (constant_payload {| header := header (move_to sample_destination 0 0);
                                values := Advertisement |})
           [x00] [x00] {| header := header (move_to sample_destination 0 0);
                          values := Advertisement |} sample_bot eq_refl eq_refl).
  discriminate.
Defined.

Lemma move_then_tick_witness :
  exists s', decode_serial_input passthrough_decode
               (constant_payload (move_to sample_destination 200 50)) [x00]
               (set_command sample_bot "AUTONOMOUS" 0 0) = Returned s' /\
    direction (fst (update identity_encode one_byte_to_bytes example_gateway_address
                      example_swarm_id 1 s')) = 10.
Proof.
  destruct (move_then_tick passthrough_decode identity_encode
              (constant_payload (move_to sample_destination 200 50)) one_byte_to_bytes
              example_gateway_address example_swarm_id 1 [x00] [x00]
              (move_to sample_destination 200 50) (set_command sample_bot "AUTONOMOUS" 0 0)
              200 50 eq_refl eq_refl eq_refl ltac:(vm_compute; reflexivity))
    as (s' & Hs & _ & _ & Hdir).
  exists s'. split; [exact Hs|]. rewrite Hdir. reflexivity.
Defined.

Lemma write_broadcast_witness :
  exists d', write passthrough_decode (constant_payload (move_to sample_destination 200 50))
               started_interface [x00] = Returned d' /\
    map rudder_slider (sailbots d') = [-56].
Proof.
  rewrite (write_broadcast passthrough_decode
             (constant_payload (move_to sample_destination 200 50)) started_interface
             [x00] [x00] (move_to sample_destination 200 50) eq_refl eq_refl).
  eexists. split; [reflexivity|]. vm_compute. reflexivity.
Defined.



Lemma passes_spaced_witness :
  exists d' out,
    loop_iteration identity_encode one_byte_to_bytes example_gateway_address
      example_swarm_id 1 0.5 started_interface = Returned (d', out) /\
    loop_iteration identity_encode one_byte_to_bytes example_gateway_address
      example_swarm_id 1 0.9 d' = Returned (d', []).
Proof.
  destruct (loop_iteration identity_encode one_byte_to_bytes example_gateway_address
              example_swarm_id 1 0.5 started_interface) as [[d' out]|e [d' out]] eqn:E.
  - exists d', out. split; [reflexivity|].
    apply (passes_spaced identity_encode one_byte_to_bytes example_gateway_address
             example_swarm_id 1 0.5 0.9 started_interface d' out); [reflexivity | exact E |].
    vm_compute. reflexivity.
  - exfalso. vm_compute in E. discriminate E.
Defined.

